(** * aerich.ddl.BaseDDL: the DDL compiler of the migration tool

    A shallow embedding of [src/aerich/ddl/__init__.py].  The methods of
    [BaseDDL] build one SQL statement per schema change from a model, a
    field descriptor (a Python [dict]) and the answers of the schema
    generator of the ORM (the "Introspector" of the specification). *)

From stdpp Require Import base option strings pretty gmap fin_maps.
From Stdlib Require Import ZArith Ascii.

Set Warnings "-register-all".
Local Open Scope string_scope.

(** ** Python values, exceptions and results *)

(** The exception classes that occur in the embedded code.  [OtherError]
    stands for any class that is not a subclass of one listed here. *)
Inductive exn : Type :=
  | NotImplementedError
  | AttributeError
  | KeyError
  | ValueError
  | IndexError
  | OtherError (cls : string).

(** The outcome of a Python expression: a value or a raised exception. *)
Inductive result (A : Type) : Type :=
  | Ok (a : A)
  | Raise (e : exn).
Arguments Ok {A} a.
Arguments Raise {A} e.

Definition rbind {A B} (r : result A) (f : A → result B) : result B :=
  match r with
  | Ok a => f a
  | Raise e => Raise e
  end.

(** The values found in a field descriptor.  [PEnum name value] is a member
    of a class that derives [enum.Enum] directly (no data-type mix-in):
    [name] is its [str()], [value] its [.value]. *)
Inductive pyval : Type :=
  | PNone
  | PBool (b : bool)
  | PInt (z : Z)
  | PStr (s : string)
  | PEnum (name : string) (value : pyval)
  | PDict (d : gmap string pyval).

(** [bool(v)]. *)
Definition py_truthy (v : pyval) : bool :=
  match v with
  | PNone => false
  | PBool b => b
  | PInt z => negb (Z.eqb z 0)
  | PStr s => negb (String.eqb s "")
  | PEnum _ _ => true
  | PDict d => negb (bool_decide (d = ∅))
  end.

(** [v is not None]. *)
Definition is_not_None (v : pyval) : bool :=
  match v with
  | PNone => false
  | _ => true
  end.

(** [isinstance(v, Enum)]. *)
Definition isinstance_Enum (v : pyval) : bool :=
  match v with
  | PEnum _ _ => true
  | _ => false
  end.

(** [v.value] for an enum member (only used under [isinstance_Enum]). *)
Definition enum_value (v : pyval) : pyval :=
  match v with
  | PEnum _ x => x
  | _ => v
  end.

(** [v in names] for a list of [str] literals: membership by [==]. *)
Definition py_in_strs (v : pyval) (names : list string) : bool :=
  match v with
  | PStr s => existsb (String.eqb s) names
  | _ => false
  end.

(** [o.get(key, dflt)] on an arbitrary object: only a [dict] has the
    method. *)
Definition py_get (o : pyval) (key : string) (dflt : pyval) : result pyval :=
  match o with
  | PDict d => Ok (default dflt (d !! key))
  | _ => Raise AttributeError
  end.

Global Instance exn_eq_dec : EqDecision exn.
Proof. solve_decision. Defined.

Global Instance result_ret : MRet result := @Ok.
Global Instance result_bind : MBind result := λ A B f r, rbind r f.

(** ** What the module imports

    [is_default_function] comes from [aerich.utils], the dialect tag of the
    SQLite schema generator from the ORM; neither is among the sources, so
    both are parameters.  [dict_str] is Python's [str()] of a [dict], whose
    text plays no role here. *)
Class Externals : Type := {
  is_default_function : pyval → bool;
  SqliteSchemaGenerator_DIALECT : string;
  dict_str : gmap string pyval → string
}.

(** [str(v)], as [str.format] applies it to a replacement value. *)
Definition py_str `{Externals} (v : pyval) : string :=
  match v with
  | PNone => "None"
  | PBool true => "True"
  | PBool false => "False"
  | PInt z => pretty z
  | PStr s => s
  | PEnum name _ => name
  | PDict d => dict_str d
  end.

(** ** [str.format] with keyword arguments

    The fragment used by the templates of [BaseDDL]: literal text, the
    escapes [{{] and [}}], and replacement fields [{name}] that name a
    keyword argument (no conversion, format spec, attribute or index).
    Keyword arguments that the template does not mention are ignored, as
    in Python.  A field whose keyword is missing raises KeyError, an
    unbalanced brace ValueError.  Templates outside this fragment are not
    covered. *)
Fixpoint kw_lookup (name : string) (kw : list (string * pyval)) : option pyval :=
  match kw with
  | [] => None
  | (k, v) :: kw' => if String.eqb k name then Some v else kw_lookup name kw'
  end.

Definition lbrace : Ascii.ascii := "{"%char.
Definition rbrace : Ascii.ascii := "}"%char.

(** The double-quote character of the SQL templates. *)
Definition dquote : string := String "034"%char "".

Fixpoint format_from `{Externals} (tmpl : string) (field : option string)
    (kw : list (string * pyval)) : result string :=
  match field with
  | None =>
      match tmpl with
      | EmptyString => Ok ""
      | String c rest =>
          if Ascii.eqb c lbrace then
            match rest with
            | String c' rest' =>
                if Ascii.eqb c' lbrace
                then s ← format_from rest' None kw; Ok (String lbrace s)
                else format_from rest (Some "") kw
            | EmptyString => Raise ValueError
            end
          else if Ascii.eqb c rbrace then
            match rest with
            | String c' rest' =>
                if Ascii.eqb c' rbrace
                then s ← format_from rest' None kw; Ok (String rbrace s)
                else Raise ValueError
            | EmptyString => Raise ValueError
            end
          else s ← format_from rest None kw; Ok (String c s)
      end
  | Some name =>
      match tmpl with
      | EmptyString => Raise ValueError
      | String c rest =>
          if Ascii.eqb c rbrace then
            if String.eqb name "" then Raise IndexError
            else match kw_lookup name kw with
                 | Some v => s ← format_from rest None kw; Ok (py_str v +:+ s)
                 | None => Raise KeyError
                 end
          else format_from rest (Some (name +:+ String c "")) kw
      end
  end.

(** The call [tmpl.format(...)] with keyword arguments [kw]. *)
Definition format `{Externals} (tmpl : string) (kw : list (string * pyval)) : result string :=
  format_from tmpl None kw.


(** ** Collaborators *)

(** [model._meta]: the part of the model metadata that [BaseDDL] reads. *)
Record Meta : Type := { db_table : string; db_pk_column : string }.
Record Model : Type := { _meta : Meta }.

(** The schema generator of the ORM ([BaseSchemaGenerator] and its dialect
    subclasses).  It is handed values, never the descriptor itself, so each
    method is a function of its arguments that returns or raises.
    [_create_string] takes, in this order, the keyword arguments
    [db_column], [field_type], [nullable], [unique], [comment],
    [is_primary_key] and [default]. *)
Record SchemaGenerator : Type := {
  _escape_default_value : pyval → result pyval;
  _column_default_generator :
    string → pyval → pyval → pyval → pyval → result string;
  _column_comment_generator : string → pyval → pyval → result string;
  _create_string :
    pyval → pyval → string → string → string → bool → string → result string;
  _generate_index_name : string → Model → list string → result string;
  quote : string → result string
}.

(** An instance of [BaseDDL] or of a dialect subclass: [DIALECT] is the
    class attribute (["sql"] in the base class), [schema_generator] the
    attribute set by [__init__]. *)
Record BaseDDL : Type := {
  DIALECT : string;
  schema_generator : SchemaGenerator
}.

(** ** Templates of the base class *)

Definition _DROP_TABLE_TEMPLATE : string :=
  "DROP TABLE IF EXISTS " +:+ dquote +:+ "{table_name}" +:+ dquote.
Definition _ADD_COLUMN_TEMPLATE : string :=
  "ALTER TABLE " +:+ dquote +:+ "{table_name}" +:+ dquote +:+ " ADD {column}".
Definition _ALTER_DEFAULT_TEMPLATE : string :=
  "ALTER TABLE " +:+ dquote +:+ "{table_name}" +:+ dquote +:+
  " ALTER COLUMN " +:+ dquote +:+ "{column}" +:+ dquote +:+ " {default}".
Definition _ADD_INDEX_TEMPLATE : string :=
  "ALTER TABLE " +:+ dquote +:+ "{table_name}" +:+ dquote +:+
  " ADD {unique}INDEX " +:+ dquote +:+ "{index_name}" +:+ dquote +:+
  " ({column_names})".
Definition _DROP_INDEX_TEMPLATE : string :=
  "ALTER TABLE " +:+ dquote +:+ "{table_name}" +:+ dquote +:+
  " DROP INDEX " +:+ dquote +:+ "{index_name}" +:+ dquote.
Definition _MODIFY_COLUMN_TEMPLATE : string :=
  "ALTER TABLE " +:+ dquote +:+ "{table_name}" +:+ dquote +:+
  " MODIFY COLUMN {column}".
Definition _RENAME_TABLE_TEMPLATE : string :=
  "ALTER TABLE " +:+ dquote +:+ "{old_table_name}" +:+ dquote +:+
  " RENAME TO " +:+ dquote +:+ "{new_table_name}" +:+ dquote.

(** ** Computations over the field descriptor

    [field_describe] is a reference to a mutable [dict].  A method that
    receives it is a function from the contents of that dict to an outcome
    and the contents afterwards. *)
Definition action (A : Type) : Type :=
  gmap string pyval → result A * gmap string pyval.

Global Instance action_ret : MRet action := λ A a fd, (Ok a, fd).
Global Instance action_bind : MBind action := λ A B f m fd,
  match m fd with
  | (Ok a, fd') => f a fd'
  | (Raise e, fd') => (Raise e, fd')
  end.

(** An expression that does not involve the descriptor. *)
Definition call {A} (r : result A) : action A := λ fd, (r, fd).

(** [field_describe.get(key)] and [field_describe.get(key, dflt)]. *)
Definition describe_get (key : string) (dflt : pyval) : action pyval :=
  λ fd, (Ok (default dflt (fd !! key)), fd).

(** [try: body except cls: handler]. *)
Definition try_except {A} (body : action A) (cls : exn) (handler : action A) : action A :=
  λ fd,
    match body fd with
    | (Raise e, fd') =>
        if bool_decide (e = cls) then handler fd' else (Raise e, fd')
    | finished => finished
    end.

(** The outcome and the final descriptor of a call. *)
Definition outcome {A} (m : action A) (fd : gmap string pyval) : result A := (m fd).1.
Definition descriptor_after {A} (m : action A) (fd : gmap string pyval) : gmap string pyval :=
  (m fd).2.

(** ** Methods of [BaseDDL] *)

Section BaseDDL.
Context `{Externals}.

Definition drop_table (self : BaseDDL) (table_name : string) : result string :=
  format _DROP_TABLE_TEMPLATE [("table_name", PStr table_name)].

Definition drop_m2m (self : BaseDDL) (table_name : string) : result string :=
  format _DROP_TABLE_TEMPLATE [("table_name", PStr table_name)].

Definition _get_default (self : BaseDDL) (model : Model) : action (option string) :=
  let db_table := model.(_meta).(db_table) in
  default ← describe_get "default" PNone;
  let default := if isinstance_Enum default then enum_value default else default in
  db_column ← describe_get "db_column" PNone;
  auto_now_add ← describe_get "auto_now_add" (PBool false);
  auto_now ← describe_get "auto_now" (PBool false);
  if is_not_None default || py_truthy auto_now_add then
    field_type ← describe_get "field_type" PNone;
    if py_in_strs field_type ["UUIDField"; "TextField"; "JSONField"]
       || is_default_function default
    then mret (Some "")
    else
      try_except
        (escaped ← call (self.(schema_generator).(_escape_default_value) default);
         clause ← call (self.(schema_generator).(_column_default_generator)
                          db_table db_column escaped auto_now_add auto_now);
         mret (Some clause))
        NotImplementedError
        (mret (Some ""))
  else mret None.

Definition _add_or_modify_column (self : BaseDDL) (model : Model)
    (is_pk : bool) (modify : bool) : action string :=
  let db_table := model.(_meta).(db_table) in
  description ← describe_get "description" PNone;
  db_column ← describe_get "db_column" PNone;
  db_field_types ← describe_get "db_field_types" PNone;
  default ← _get_default self model;
  let default := match default with None => "" | Some clause => clause end in
  '(unique, template) ←
    (if modify then mret ("", _MODIFY_COLUMN_TEMPLATE)
     else
       flag ← describe_get "unique" PNone;
       mret (if py_truthy flag
                && negb (String.eqb self.(DIALECT) SqliteSchemaGenerator_DIALECT)
             then "UNIQUE" else "",
             _ADD_COLUMN_TEMPLATE));
  fallback ← call (py_get db_field_types "" PNone);
  field_type ← call (py_get db_field_types self.(DIALECT) fallback);
  nullable ← describe_get "nullable" PNone;
  comment ←
    (if py_truthy description
     then call (self.(schema_generator).(_column_comment_generator)
                  db_table db_column description)
     else mret "");
  column ← call (self.(schema_generator).(_create_string)
                   db_column field_type
                   (if negb (py_truthy nullable) then "NOT NULL" else "")
                   unique comment is_pk default);
  call (format template [("table_name", PStr db_table); ("column", PStr column)]).

Definition add_column (self : BaseDDL) (model : Model) (is_pk : bool) : action string :=
  _add_or_modify_column self model is_pk false.

Definition modify_column (self : BaseDDL) (model : Model) (is_pk : bool) : action string :=
  _add_or_modify_column self model is_pk true.

Definition add_index (self : BaseDDL) (model : Model) (field_names : list string)
    (unique : bool) : result string :=
  index_name ← self.(schema_generator).(_generate_index_name)
                 (if negb unique then "idx" else "uid") model field_names;
  quoted ← mapM self.(schema_generator).(quote) field_names;
  format _ADD_INDEX_TEMPLATE
    [("unique", PStr (if unique then "UNIQUE " else ""));
     ("index_name", PStr index_name);
     ("table_name", PStr model.(_meta).(db_table));
     ("column_names", PStr (String.concat ", " quoted))].

Definition drop_index (self : BaseDDL) (model : Model) (field_names : list string)
    (unique : bool) : result string :=
  index_name ← self.(schema_generator).(_generate_index_name)
                 (if negb unique then "idx" else "uid") model field_names;
  format _DROP_INDEX_TEMPLATE
    [("index_name", PStr index_name);
     ("table_name", PStr model.(_meta).(db_table))].

Definition alter_column_default (self : BaseDDL) (model : Model) : action string :=
  let db_table := model.(_meta).(db_table) in
  default ← _get_default self model;
  column ← describe_get "db_column" PNone;
  call (format _ALTER_DEFAULT_TEMPLATE
          [("table_name", PStr db_table);
           ("column", column);
           ("default", PStr (match default with
                             | Some clause => "SET" +:+ clause
                             | None => "DROP DEFAULT"
                             end))]).

Definition alter_column_null (self : BaseDDL) (model : Model) : action string :=
  modify_column self model false.

Definition set_comment (self : BaseDDL) (model : Model) : action string :=
  modify_column self model false.

Definition rename_table (self : BaseDDL) (model : Model)
    (old_table_name new_table_name : string) : result string :=
  let db_table := model.(_meta).(db_table) in
  format _RENAME_TABLE_TEMPLATE
    [("table_name", PStr db_table);
     ("old_table_name", PStr old_table_name);
     ("new_table_name", PStr new_table_name)].

(** *** Vocabulary of the statements

    Parts of the methods above, named so that the theorems can speak about
    them; each is tied to the method it comes from by a proved equation. *)

(** Lines 133-152 of the source with the resolved field type, unique
    constraint and default clause as parameters: the statement that
    [_add_or_modify_column] returns once these three are known. *)
Definition column_statement (self : BaseDDL) (model : Model)
    (fd : gmap string pyval) (is_pk modify : bool)
    (field_type : pyval) (unique clause : string) : result string :=
  let db_table := model.(_meta).(db_table) in
  let description := default PNone (fd !! "description") in
  let db_column := default PNone (fd !! "db_column") in
  comment ←
    (if py_truthy description
     then self.(schema_generator).(_column_comment_generator)
            db_table db_column description
     else Ok "");
  column ← self.(schema_generator).(_create_string)
             db_column field_type
             (if negb (py_truthy (default PNone (fd !! "nullable")))
              then "NOT NULL" else "")
             unique comment is_pk clause;
  format (if modify then _MODIFY_COLUMN_TEMPLATE else _ADD_COLUMN_TEMPLATE)
    [("table_name", PStr db_table); ("column", PStr column)].

(** The default after the substitution of an enum member by its value. *)
Definition substituted_default (fd : gmap string pyval) : pyval :=
  let d := default PNone (fd !! "default") in
  if isinstance_Enum d then enum_value d else d.

(** Source line 137: the SQL type looked up in [db_field_types]. *)
Definition resolved_field_type (self : BaseDDL) (fd : gmap string pyval) : result pyval :=
  let db_field_types := default PNone (fd !! "db_field_types") in
  fallback ← py_get db_field_types "" PNone;
  py_get db_field_types self.(DIALECT) fallback.

(** Source lines 122-132: the [unique] argument of [_create_string]. *)
Definition unique_argument (self : BaseDDL) (fd : gmap string pyval) (modify : bool) : string :=
  if modify then ""
  else if py_truthy (default PNone (fd !! "unique"))
          && negb (String.eqb self.(DIALECT) SqliteSchemaGenerator_DIALECT)
       then "UNIQUE" else "".

(** The descriptor with its default and [auto_now_add] entries removed. *)
Definition without_default (fd : gmap string pyval) : gmap string pyval :=
  delete "default" (delete "auto_now_add" fd).

End BaseDDL.

(** An action that leaves the descriptor as it found it. *)
Definition readonly {A} (m : action A) : Prop :=
  ∀ fd, m fd = (outcome m fd, fd).

(** ** Running examples

    A small schema generator and import environment on which the methods
    can be run.  They stand in for the ORM's generators in examples only;
    every theorem below quantifies over the real ones. *)

Definition sample_externals : Externals := {|
  is_default_function := λ v,
    match v with
    | PStr s => String.prefix "<function" s
    | _ => false
    end;
  SqliteSchemaGenerator_DIALECT := "sqlite";
  dict_str := λ _, "{...}"
|}.

Definition sample_generator : SchemaGenerator := {|
  _escape_default_value := λ v,
    match v with
    | PDict _ => Raise NotImplementedError
    | _ => Ok v
    end;
  _column_default_generator := λ table column value auto_now_add auto_now,
    match value with
    | PBool _ => Raise NotImplementedError
    | _ => Ok (" DEFAULT " +:+ @py_str sample_externals value)
    end;
  _column_comment_generator := λ table column text,
    Ok (" COMMENT '" +:+ @py_str sample_externals text +:+ "'");
  _create_string := λ db_column field_type nullable unique comment is_pk default,
    Ok (dquote +:+ @py_str sample_externals db_column +:+ dquote +:+ " "
        +:+ @py_str sample_externals field_type
        +:+ (if String.eqb nullable "" then "" else " " +:+ nullable)
        +:+ (if String.eqb unique "" then "" else " UNIQUE")
        +:+ (if is_pk then " PRIMARY KEY" else "")
        +:+ default +:+ comment);
  _generate_index_name := λ prefix model field_names,
    Ok (prefix +:+ "_" +:+ model.(_meta).(db_table) +:+ "_"
        +:+ String.concat "_" field_names);
  quote := λ name, Ok (dquote +:+ name +:+ dquote)
|}.

Definition sample_ddl (dialect : string) : BaseDDL :=
  {| DIALECT := dialect; schema_generator := sample_generator |}.

Definition user_model : Model :=
  {| _meta := {| db_table := "user"; db_pk_column := "id" |} |}.

(** [email]: VARCHAR, not null, unique, no default. *)
Definition email_field : gmap string pyval :=
  list_to_map
    [("db_column", PStr "email");
     ("field_type", PStr "CharField");
     ("db_field_types", PDict (list_to_map [("", PStr "VARCHAR")]));
     ("nullable", PBool false);
     ("unique", PBool true)].

(** [bio]: a text field with a literal default. *)
Definition bio_field : gmap string pyval :=
  list_to_map
    [("db_column", PStr "bio");
     ("field_type", PStr "TextField");
     ("db_field_types", PDict (list_to_map [("", PStr "TEXT")]));
     ("nullable", PBool false);
     ("default", PStr "n/a")].

(** [age]: an integer column with default 18. *)
Definition age_field : gmap string pyval :=
  list_to_map
    [("db_column", PStr "age");
     ("field_type", PStr "IntField");
     ("db_field_types",
      PDict (list_to_map [("", PStr "INT"); ("postgres", PStr "INTEGER")]));
     ("nullable", PBool true);
     ("default", PInt 18)].

(** [active]: a boolean column whose default the sample generator cannot
    render. *)
Definition active_field : gmap string pyval :=
  list_to_map
    [("db_column", PStr "active");
     ("field_type", PStr "BooleanField");
     ("db_field_types", PDict (list_to_map [("", PStr "BOOL")]));
     ("nullable", PBool false);
     ("default", PBool true)].

(** ** The remaining methods of [BaseDDL] *)

(** The line feed of the many-to-many template. *)
Definition newline : string := String "010"%char "".

Definition _DROP_COLUMN_TEMPLATE : string :=
  "ALTER TABLE " +:+ dquote +:+ "{table_name}" +:+ dquote +:+
  " DROP COLUMN " +:+ dquote +:+ "{column_name}" +:+ dquote.
Definition _RENAME_COLUMN_TEMPLATE : string :=
  "ALTER TABLE " +:+ dquote +:+ "{table_name}" +:+ dquote +:+
  " RENAME COLUMN " +:+ dquote +:+ "{old_column_name}" +:+ dquote +:+
  " TO " +:+ dquote +:+ "{new_column_name}" +:+ dquote.
Definition _ADD_FK_TEMPLATE : string :=
  "ALTER TABLE " +:+ dquote +:+ "{table_name}" +:+ dquote +:+
  " ADD CONSTRAINT " +:+ dquote +:+ "{fk_name}" +:+ dquote +:+
  " FOREIGN KEY (" +:+ dquote +:+ "{db_column}" +:+ dquote +:+
  ") REFERENCES " +:+ dquote +:+ "{table}" +:+ dquote +:+
  " (" +:+ dquote +:+ "{field}" +:+ dquote +:+ ") ON DELETE {on_delete}".
Definition _DROP_FK_TEMPLATE : string :=
  "ALTER TABLE " +:+ dquote +:+ "{table_name}" +:+ dquote +:+
  " DROP FOREIGN KEY " +:+ dquote +:+ "{fk_name}" +:+ dquote.
Definition _M2M_TABLE_TEMPLATE : string :=
  "CREATE TABLE " +:+ dquote +:+ "{table_name}" +:+ dquote +:+ " (" +:+ newline +:+
  "    " +:+ dquote +:+ "{backward_key}" +:+ dquote +:+
  " {backward_type} NOT NULL REFERENCES " +:+ dquote +:+ "{backward_table}" +:+ dquote +:+
  " (" +:+ dquote +:+ "{backward_field}" +:+ dquote +:+ ") ON DELETE CASCADE," +:+ newline +:+
  "    " +:+ dquote +:+ "{forward_key}" +:+ dquote +:+
  " {forward_type} NOT NULL REFERENCES " +:+ dquote +:+ "{forward_table}" +:+ dquote +:+
  " (" +:+ dquote +:+ "{forward_field}" +:+ dquote +:+ ") ON DELETE {on_delete}" +:+ newline +:+
  "){extra}{comment}".
Definition _CHANGE_COLUMN_TEMPLATE : string :=
  "ALTER TABLE " +:+ dquote +:+ "{table_name}" +:+ dquote +:+
  " CHANGE {old_column_name} {new_column_name} {new_column_type}".

(** [a in chars] for a character and a [str]. *)
Fixpoint char_in (a : Ascii.ascii) (chars : string) : bool :=
  match chars with
  | EmptyString => false
  | String c chars' => Ascii.eqb a c || char_in a chars'
  end.

(** [s.rstrip(chars)]: [s] without its longest suffix made of characters
    of [chars]. *)
Fixpoint rstrip (chars s : string) : string :=
  match s with
  | EmptyString => ""
  | String a rest =>
      match rstrip chars rest with
      | EmptyString => if char_in a chars then "" else String a ""
      | kept => String a kept
      end
  end.

(** Every character of [s] occurs in [chars]. *)
Fixpoint all_in (chars s : string) : bool :=
  match s with
  | EmptyString => true
  | String a rest => char_in a chars && all_in chars rest
  end.

(** [o.rstrip(chars)] on an arbitrary object: only a [str] has the method. *)
Definition py_rstrip (o : pyval) (chars : string) : result string :=
  match o with
  | PStr s => Ok (rstrip chars s)
  | _ => Raise AttributeError
  end.

(** [o[key]] for a [str] key: KeyError on a dict without the key,
    TypeError on the other values. *)
Definition py_getitem (o : pyval) (key : string) : result pyval :=
  match o with
  | PDict d =>
      match d !! key with
      | Some v => Ok v
      | None => Raise KeyError
      end
  | _ => Raise (OtherError "TypeError")
  end.

(** The methods of the schema generator and of the model that the methods
    below use besides those of [SchemaGenerator]: [_get_table_sql model
    safe], [_table_generate_extra table], [_table_comment_generator table
    comment], [_generate_fk_name from_table from_field to_table to_field],
    and [get_for_dialect model dialect key] for
    [model._meta.pk.get_for_dialect(dialect, key)]. *)
Module Orm.
Record Tables : Type := {
  _get_table_sql : Model → bool → result pyval;
  _table_generate_extra : pyval → result string;
  _table_comment_generator : pyval → pyval → result string;
  _generate_fk_name : string → pyval → pyval → pyval → result string;
  get_for_dialect : Model → string → string → result pyval
}.
End Orm.

(** An instance together with the remaining methods of its
    [schema_generator]. *)
Record DDL : Type := {
  base : BaseDDL;
  tables : Orm.Tables
}.

Section RemainingMethods.
Context `{Externals}.

Definition create_table (self : DDL) (model : Model) : result string :=
  table_sql ← Orm._get_table_sql self.(tables) model true;
  creation ← py_getitem table_sql "table_creation_string";
  py_rstrip creation ";".

Definition create_m2m (self : DDL) (model : Model)
    (field_describe reference_table_describe : gmap string pyval) : result string :=
  let through := default PNone (field_describe !! "through") in
  let description := default PNone (field_describe !! "description") in
  let pk_field := default PNone (reference_table_describe !! "pk_field") in
  reference_id ← py_get pk_field "db_column" PNone;
  db_field_types ← py_get pk_field "db_field_types" PNone;
  backward_type ← Orm.get_for_dialect self.(tables) model
                    self.(base).(DIALECT) "SQL_TYPE";
  dialect_type ← py_get db_field_types self.(base).(DIALECT) PNone;
  forward_type ←
    (if py_truthy dialect_type then Ok dialect_type
     else py_get db_field_types "" PNone);
  extra ← Orm._table_generate_extra self.(tables) through;
  comment ←
    (if py_truthy description
     then Orm._table_comment_generator self.(tables) through description
     else Ok "");
  format _M2M_TABLE_TEMPLATE
    [("table_name", through);
     ("backward_table", PStr model.(_meta).(db_table));
     ("forward_table", default PNone (reference_table_describe !! "table"));
     ("backward_field", PStr model.(_meta).(db_pk_column));
     ("forward_field", reference_id);
     ("backward_key", default PNone (field_describe !! "backward_key"));
     ("backward_type", backward_type);
     ("forward_key", default PNone (field_describe !! "forward_key"));
     ("forward_type", forward_type);
     ("on_delete", default PNone (field_describe !! "on_delete"));
     ("extra", PStr extra);
     ("comment", PStr comment)].

Definition drop_column (self : BaseDDL) (model : Model) (column_name : string) : result string :=
  format _DROP_COLUMN_TEMPLATE
    [("table_name", PStr model.(_meta).(db_table));
     ("column_name", PStr column_name)].

Definition rename_column (self : BaseDDL) (model : Model)
    (old_column_name new_column_name : string) : result string :=
  format _RENAME_COLUMN_TEMPLATE
    [("table_name", PStr model.(_meta).(db_table));
     ("old_column_name", PStr old_column_name);
     ("new_column_name", PStr new_column_name)].

Definition change_column (self : BaseDDL) (model : Model)
    (old_column_name new_column_name new_column_type : string) : result string :=
  format _CHANGE_COLUMN_TEMPLATE
    [("table_name", PStr model.(_meta).(db_table));
     ("old_column_name", PStr old_column_name);
     ("new_column_name", PStr new_column_name);
     ("new_column_type", PStr new_column_type)].

Definition drop_index_by_name (self : BaseDDL) (model : Model) (index_name : string) : result string :=
  format _DROP_INDEX_TEMPLATE
    [("index_name", PStr index_name);
     ("table_name", PStr model.(_meta).(db_table))].

Definition _generate_fk_name (self : DDL) (db_table : string)
    (field_describe reference_table_describe : gmap string pyval) : result string :=
  let db_column := default PNone (field_describe !! "raw_field") in
  let pk_field := default PNone (reference_table_describe !! "pk_field") in
  to_field ← py_get pk_field "db_column" PNone;
  let to_table := default PNone (reference_table_describe !! "table") in
  Orm._generate_fk_name self.(tables) db_table db_column to_table to_field.

Definition add_fk (self : DDL) (model : Model)
    (field_describe reference_table_describe : gmap string pyval) : result string :=
  let db_table := model.(_meta).(db_table) in
  let db_column := default PNone (field_describe !! "raw_field") in
  let pk_field := default PNone (reference_table_describe !! "pk_field") in
  reference_id ← py_get pk_field "db_column" PNone;
  fk_name ← _generate_fk_name self db_table field_describe reference_table_describe;
  format _ADD_FK_TEMPLATE
    [("table_name", PStr db_table);
     ("fk_name", PStr fk_name);
     ("db_column", db_column);
     ("table", default PNone (reference_table_describe !! "table"));
     ("field", reference_id);
     ("on_delete", default PNone (field_describe !! "on_delete"))].

Definition drop_fk (self : DDL) (model : Model)
    (field_describe reference_table_describe : gmap string pyval) : result string :=
  let db_table := model.(_meta).(db_table) in
  fk_name ← _generate_fk_name self db_table field_describe reference_table_describe;
  format _DROP_FK_TEMPLATE
    [("table_name", PStr db_table); ("fk_name", PStr fk_name)].

End RemainingMethods.

(** Two descriptors with the same entries under the given keys. *)
Definition agree_on (keys : list string) (fd fd' : gmap string pyval) : Prop :=
  ∀ key, key ∈ keys → fd !! key = fd' !! key.

(** A sample of the remaining generator methods, for examples only. *)
Definition sample_tables : Orm.Tables := {|
  Orm._get_table_sql := λ model safe,
    Ok (PDict {[ "table_creation_string" :=
                   PStr ("CREATE TABLE " +:+ (if safe then "IF NOT EXISTS " else "")
                         +:+ dquote +:+ model.(_meta).(db_table) +:+ dquote
                         +:+ " (...);") ]});
  Orm._table_generate_extra := λ table, Ok "";
  Orm._table_comment_generator := λ table text,
    Ok (" COMMENT='" +:+ @py_str sample_externals text +:+ "'");
  Orm._generate_fk_name := λ from_table from_field to_table to_field,
    Ok ("fk_" +:+ from_table +:+ "_" +:+ @py_str sample_externals to_table);
  Orm.get_for_dialect := λ model dialect key, Ok (PStr "INT")
|}.

(** A generator whose table description lacks the creation string, whose
    default clause fails with ValueError and that refuses to quote the
    empty name; otherwise as the samples above. *)
Definition strict_generator : SchemaGenerator := {|
  _escape_default_value := _escape_default_value sample_generator;
  _column_default_generator := λ table column value auto_now_add auto_now,
    Raise ValueError;
  _column_comment_generator := _column_comment_generator sample_generator;
  _create_string := _create_string sample_generator;
  _generate_index_name := _generate_index_name sample_generator;
  quote := λ name,
    if String.eqb name "" then Raise ValueError else Ok (dquote +:+ name +:+ dquote)
|}.

Definition strict_tables : Orm.Tables := {|
  Orm._get_table_sql := λ model safe, Ok (PDict ∅);
  Orm._table_generate_extra := Orm._table_generate_extra sample_tables;
  Orm._table_comment_generator := Orm._table_comment_generator sample_tables;
  Orm._generate_fk_name := Orm._generate_fk_name sample_tables;
  Orm.get_for_dialect := Orm.get_for_dialect sample_tables
|}.

Definition strict_ddl : DDL :=
  {| base := {| DIALECT := "sql"; schema_generator := strict_generator |};
     tables := strict_tables |}.

Definition sample_full_ddl (dialect : string) : DDL :=
  {| base := sample_ddl dialect; tables := sample_tables |}.

(** A foreign key [owner] to the table [team], and the description of
    that table. *)
Definition owner_field : gmap string pyval :=
  list_to_map
    [("raw_field", PStr "owner_id");
     ("on_delete", PStr "CASCADE");
     ("through", PStr "user_team");
     ("backward_key", PStr "user_id");
     ("forward_key", PStr "team_id")].

(** The primary key of [team], and one whose MySQL type is left empty. *)
Definition team_pk : gmap string pyval :=
  list_to_map
    [("db_column", PStr "id");
     ("db_field_types", PDict {[ "" := PStr "BIGINT" ]})].

Definition legacy_types : gmap string pyval :=
  list_to_map [("", PStr "BIGINT"); ("mysql", PStr "")].

Definition legacy_pk : gmap string pyval :=
  list_to_map
    [("db_column", PStr "id");
     ("db_field_types", PDict legacy_types)].

Definition legacy_table : gmap string pyval :=
  list_to_map [("table", PStr "legacy"); ("pk_field", PDict legacy_pk)].

Definition team_table : gmap string pyval :=
  list_to_map
    [("table", PStr "team");
     ("pk_field",
      PDict (list_to_map
               [("db_column", PStr "id");
                ("db_field_types", PDict {[ "" := PStr "BIGINT" ]})]))].

(** ** Frame lemmas: the methods only read the descriptor *)

Lemma readonly_ret {A} (a : A) : readonly (mret a).
Proof. by intros fd. Qed.

Lemma readonly_call {A} (r : result A) : readonly (call r).
Proof. by intros fd. Qed.

Lemma readonly_describe_get key dflt : readonly (describe_get key dflt).
Proof. by intros fd. Qed.

Lemma readonly_bind {A B} (m : action A) (f : A → action B) :
  readonly m → (∀ a, readonly (f a)) → readonly (m ≫= f).
Proof.
  intros Hm Hf fd. unfold outcome, mbind, action_bind.
  rewrite (Hm fd). destruct (outcome m fd) as [a|e]; [|done].
  rewrite (Hf a fd). done.
Qed.

Lemma readonly_try_except {A} (body : action A) cls (handler : action A) :
  readonly body → readonly handler → readonly (try_except body cls handler).
Proof.
  intros Hb Hh fd. unfold outcome, try_except.
  rewrite (Hb fd). destruct (outcome body fd) as [a|e]; [done|].
  case_bool_decide; [|done]. rewrite (Hh fd). done.
Qed.

Lemma outcome_bind {A B} (m : action A) (f : A → action B) fd :
  readonly m →
  outcome (m ≫= f) fd = outcome m fd ≫= (λ a, outcome (f a) fd).
Proof.
  intros Hm. unfold outcome at 1. unfold mbind at 1. unfold action_bind.
  rewrite (Hm fd). by destruct (outcome m fd).
Qed.

Create HintDb readonly.
#[local] Hint Resolve readonly_ret readonly_call readonly_describe_get : readonly.

Ltac solve_readonly :=
  repeat first
    [ apply readonly_bind; [|intros ?]
    | apply readonly_try_except
    | progress eauto with readonly
    | match goal with
      | |- readonly (if ?b then _ else _) => destruct b
      | |- readonly (let '(_, _) := ?p in _) => destruct p
      | |- readonly (match ?o with Some _ => _ | None => _ end) => destruct o
      end ].

Section Frame.
Context `{Externals}.

Lemma readonly_get_default self model : readonly (_get_default self model).
Proof. unfold _get_default. solve_readonly. Qed.

Lemma readonly_add_or_modify_column self model is_pk modify :
  readonly (_add_or_modify_column self model is_pk modify).
Proof.
  unfold _add_or_modify_column.
  pose proof (readonly_get_default self model).
  solve_readonly.
Qed.

Lemma readonly_alter_column_default self model :
  readonly (alter_column_default self model).
Proof.
  unfold alter_column_default.
  pose proof (readonly_get_default self model).
  solve_readonly.
Qed.

End Frame.

(** Unfolds the plumbing of both monads. *)
Ltac run_action :=
  unfold mbind, mret, action_bind, action_ret, result_bind, result_ret,
    describe_get, call, try_except, rbind; cbn.

#[local] Arguments String.append !s1 s2 : simpl nomatch.

Lemma append_empty_r (s : string) : s +:+ "" = s.
Proof. induction s as [|c s IH]; cbn; [done|]. by rewrite IH. Qed.

(** Runs [format] on a template given in full. *)
Ltac run_format :=
  unfold format, _DROP_TABLE_TEMPLATE, _ADD_COLUMN_TEMPLATE,
    _ALTER_DEFAULT_TEMPLATE, _ADD_INDEX_TEMPLATE, _DROP_INDEX_TEMPLATE,
    _MODIFY_COLUMN_TEMPLATE, _RENAME_TABLE_TEMPLATE, dquote;
  cbn; rewrite ?append_empty_r; try reflexivity.

Section Outcomes.
Context `{Externals}.

Lemma get_default_outcome self model fd :
  outcome (_get_default self model) fd =
    let d := substituted_default fd in
    let auto_now_add := default (PBool false) (fd !! "auto_now_add") in
    if is_not_None d || py_truthy auto_now_add then
      if py_in_strs (default PNone (fd !! "field_type"))
           ["UUIDField"; "TextField"; "JSONField"]
         || is_default_function d
      then Ok (Some "")
      else
        match
          escaped ← self.(schema_generator).(_escape_default_value) d;
          self.(schema_generator).(_column_default_generator)
            model.(_meta).(db_table) (default PNone (fd !! "db_column"))
            escaped auto_now_add (default (PBool false) (fd !! "auto_now"))
        with
        | Ok clause => Ok (Some clause)
        | Raise e => if bool_decide (e = NotImplementedError)
                     then Ok (Some "") else Raise e
        end
    else Ok None.
Proof.
  unfold outcome, _get_default, substituted_default. run_action.
  destruct (_ || _); [|done].
  destruct (_ || _); [done|].
  destruct (_escape_default_value _ _) as [escaped|e]; cbn.
  - destruct (_column_default_generator _ _ _ _ _ _) as [clause|e]; cbn; [done|].
    by case_bool_decide.
  - by case_bool_decide.
Qed.

Lemma add_or_modify_column_outcome self model is_pk modify fd :
  outcome (_add_or_modify_column self model is_pk modify) fd =
    clause ← outcome (_get_default self model) fd;
    let types := default PNone (fd !! "db_field_types") in
    fallback ← py_get types "" PNone;
    field_type ← py_get types self.(DIALECT) fallback;
    column_statement self model fd is_pk modify field_type
      (if negb modify
          && py_truthy (default PNone (fd !! "unique"))
          && negb (String.eqb self.(DIALECT) SqliteSchemaGenerator_DIALECT)
       then "UNIQUE" else "")
      (default "" clause).
Proof.
  unfold outcome at 1. unfold _add_or_modify_column. run_action.
  rewrite (readonly_get_default self model fd).
  destruct (outcome (_get_default self model) fd) as [clause|e]; [|done].
  cbn. unfold column_statement. run_action.
  destruct modify; cbn;
    (destruct (py_get _ "" _) as [fallback|e]; cbn; [|done]);
    (destruct (py_get _ (DIALECT self) _) as [field_type|e]; cbn; [|done]);
    (destruct (py_truthy (default PNone (fd !! "description"))); cbn;
      [destruct (_column_comment_generator _ _ _ _) as [comment|e]; cbn; [|done]|]);
    (destruct (_create_string _ _ _ _ _ _ _ _) as [column|e]; cbn; [|done]);
    by destruct clause.
Qed.

Lemma alter_column_default_outcome self model fd :
  outcome (alter_column_default self model) fd =
    clause ← outcome (_get_default self model) fd;
    format _ALTER_DEFAULT_TEMPLATE
      [("table_name", PStr model.(_meta).(db_table));
       ("column", default PNone (fd !! "db_column"));
       ("default", PStr (match clause with
                         | Some c => "SET" +:+ c
                         | None => "DROP DEFAULT"
                         end))].
Proof.
  unfold outcome at 1. unfold alter_column_default. run_action.
  rewrite (readonly_get_default self model fd).
  by destruct (outcome (_get_default self model) fd).
Qed.

(** The statement of [alter_column_default] for each result of the default
    resolution. *)
Lemma alter_column_default_text self model fd :
  outcome (alter_column_default self model) fd =
    clause ← outcome (_get_default self model) fd;
    Ok ("ALTER TABLE " +:+ dquote +:+ model.(_meta).(db_table) +:+ dquote
        +:+ " ALTER COLUMN " +:+ dquote
        +:+ py_str (default PNone (fd !! "db_column")) +:+ dquote +:+ " "
        +:+ match clause with
            | Some c => "SET" +:+ c
            | None => "DROP DEFAULT"
            end).
Proof.
  rewrite alter_column_default_outcome.
  destruct (outcome (_get_default self model) fd) as [[c|]|e]; [| |done];
    run_action; run_format.
Qed.

End Outcomes.

(** ** The claims *)

Section Claims.
Context `{Externals}.

Lemma add_or_modify_column_eq self model is_pk modify fd :
  outcome (_add_or_modify_column self model is_pk modify) fd =
    clause ← outcome (_get_default self model) fd;
    field_type ← resolved_field_type self fd;
    column_statement self model fd is_pk modify field_type
      (unique_argument self fd modify) (default "" clause).
Proof.
  rewrite add_or_modify_column_outcome. unfold resolved_field_type, unique_argument.
  destruct (outcome (_get_default self model) fd) as [clause|e]; [|done].
  run_action.
  destruct (py_get _ "" _) as [fallback|e]; [|done].
  by destruct modify.
Qed.

Lemma column_statement_text self model fd is_pk modify field_type unique clause :
  column_statement self model fd is_pk modify field_type unique clause =
    comment ←
      (if py_truthy (default PNone (fd !! "description"))
       then self.(schema_generator).(_column_comment_generator)
              model.(_meta).(db_table) (default PNone (fd !! "db_column"))
              (default PNone (fd !! "description"))
       else Ok "");
    column ← self.(schema_generator).(_create_string)
               (default PNone (fd !! "db_column")) field_type
               (if py_truthy (default PNone (fd !! "nullable")) then "" else "NOT NULL")
               unique comment is_pk clause;
    Ok ("ALTER TABLE " +:+ dquote +:+ model.(_meta).(db_table) +:+ dquote
        +:+ (if modify then " MODIFY COLUMN " else " ADD ") +:+ column).
Proof.
  unfold column_statement. run_action.
  destruct (if py_truthy (default PNone (fd !! "description")) then _ else _)
    as [comment|e]; [|done].
  destruct (py_truthy (default PNone (fd !! "nullable"))); cbn;
    (destruct (_create_string _ _ _ _ _ _ _ _) as [column|e]; [|done]);
    destruct modify; run_format.
Qed.

(** C7: [drop_table] and [drop_m2m] return the same statement for every
    table name, namely DROP TABLE IF EXISTS followed by the quoted name;
    the text does not depend on the instance, so repeated calls agree. *)
Theorem drop_table_drop_m2m_same_statement (self self' : BaseDDL) (table_name : string) :
  drop_table self table_name =
    Ok ("DROP TABLE IF EXISTS " +:+ dquote +:+ table_name +:+ dquote)
  ∧ drop_m2m self table_name = drop_table self table_name
  ∧ drop_table self' table_name = drop_table self table_name
  ∧ drop_m2m self' table_name = drop_m2m self table_name.
Proof. unfold drop_table, drop_m2m. repeat split; run_format. Qed.

(** C10: [rename_table] returns ALTER TABLE old RENAME TO new (both names
    quoted) for every model; the table name of the model is passed to the
    template, which has no field for it, so two models give the same
    statement. *)
Theorem rename_table_ignores_model (self : BaseDDL) (m1 m2 : Model)
    (old_table_name new_table_name : string) :
  rename_table self m1 old_table_name new_table_name =
    Ok ("ALTER TABLE " +:+ dquote +:+ old_table_name +:+ dquote
        +:+ " RENAME TO " +:+ dquote +:+ new_table_name +:+ dquote)
  ∧ rename_table self m2 old_table_name new_table_name =
    rename_table self m1 old_table_name new_table_name.
Proof. unfold rename_table. split; run_format. Qed.

(** C6: [add_index] and [drop_index] obtain the index name from the same
    call of the name generator: kind tag uid when [unique] holds and idx
    otherwise, the model, the field list.  Each statement embeds the name
    that this call returns, and fails as the call fails. *)
Theorem add_index_drop_index_same_name (self : BaseDDL) (model : Model)
    (field_names : list string) (unique : bool) :
  let generated :=
    self.(schema_generator).(_generate_index_name)
      (if unique then "uid" else "idx") model field_names in
  add_index self model field_names unique =
    (index_name ← generated;
     quoted ← mapM self.(schema_generator).(quote) field_names;
     Ok ("ALTER TABLE " +:+ dquote +:+ model.(_meta).(db_table) +:+ dquote
         +:+ " ADD " +:+ (if unique then "UNIQUE " else "") +:+ "INDEX "
         +:+ dquote +:+ index_name +:+ dquote
         +:+ " (" +:+ String.concat ", " quoted +:+ ")"))
  ∧ drop_index self model field_names unique =
    (index_name ← generated;
     Ok ("ALTER TABLE " +:+ dquote +:+ model.(_meta).(db_table) +:+ dquote
         +:+ " DROP INDEX " +:+ dquote +:+ index_name +:+ dquote)).
Proof.
  unfold add_index, drop_index. destruct unique; cbn;
    (destruct (_generate_index_name _ _ _ _) as [index_name|e]; [|done]);
    run_action; (split; [|run_format]);
    (destruct (mapM _ _) as [quoted|e]; [|done]);
    run_format.
Qed.

(** C4: default resolution returns None exactly when the default, after an
    enum member has been replaced by its value, is None and [auto_now_add]
    is not set; in every other case it returns a clause (possibly the
    empty string) or raises, never None. *)
Theorem get_default_None_iff (self : BaseDDL) (model : Model) (fd : gmap string pyval) :
  let no_default :=
    substituted_default fd = PNone
    ∧ py_truthy (default (PBool false) (fd !! "auto_now_add")) = false in
  (outcome (_get_default self model) fd = Ok None ↔ no_default)
  ∧ (¬ no_default →
     (∃ clause, outcome (_get_default self model) fd = Ok (Some clause))
     ∨ (∃ e, outcome (_get_default self model) fd = Raise e)).
Proof.
  cbn zeta. rewrite get_default_outcome. cbn zeta.
  destruct (substituted_default fd) eqn:Hd;
    destruct (py_truthy (default (PBool false) (fd !! "auto_now_add"))) eqn:Ha;
    cbn [is_not_None orb];
    try (destruct (_ || _);
         [|destruct (_ ≫= _) as [clause|e]; [|case_bool_decide]]);
    (split; [split; [try done; by intros [??] | try done; by intros [??]]|]);
    try (intros Hno; exfalso; by apply Hno);
    intros _; eauto.
Qed.

(** C2: the unique argument handed to [_create_string] is UNIQUE exactly
    when [modify] is false, the unique flag of the descriptor is set and
    the dialect is not that of SQLite, and it is empty otherwise.  So
    [add_column] passes UNIQUE for a unique field except on SQLite, and
    [modify_column] never passes it and renders MODIFY COLUMN where
    [add_column] renders ADD. *)
Theorem unique_only_when_adding_off_sqlite (self : BaseDDL) (model : Model)
    (is_pk modify : bool) (fd : gmap string pyval) :
  let sg := self.(schema_generator) in
  let table := model.(_meta).(db_table) in
  let get key := default PNone (fd !! key) in
  let sqlite := String.eqb self.(DIALECT) SqliteSchemaGenerator_DIALECT in
  let render unique verb :=
    clause ← outcome (_get_default self model) fd;
    field_type ← resolved_field_type self fd;
    comment ← (if py_truthy (get "description")
               then sg.(_column_comment_generator) table (get "db_column")
                      (get "description")
               else Ok "");
    column ← sg.(_create_string) (get "db_column") field_type
               (if py_truthy (get "nullable") then "" else "NOT NULL")
               unique comment is_pk (default "" clause);
    Ok ("ALTER TABLE " +:+ dquote +:+ table +:+ dquote +:+ verb +:+ column) in
  (unique_argument self fd modify = "UNIQUE" ↔
   modify = false ∧ py_truthy (get "unique") = true
   ∧ self.(DIALECT) ≠ SqliteSchemaGenerator_DIALECT)
  ∧ (unique_argument self fd modify = "UNIQUE" ∨ unique_argument self fd modify = "")
  ∧ outcome (_add_or_modify_column self model is_pk modify) fd =
      render (unique_argument self fd modify)
        (if modify then " MODIFY COLUMN " else " ADD ")
  ∧ outcome (add_column self model is_pk) fd =
      render (if py_truthy (get "unique") && negb sqlite then "UNIQUE" else "") " ADD "
  ∧ outcome (modify_column self model is_pk) fd = render "" " MODIFY COLUMN ".
Proof.
  cbn zeta. split; [|split; [|split; [|split]]].
  - unfold unique_argument. destruct modify; [intuition congruence|].
    destruct (py_truthy _); cbn; [|intuition congruence].
    destruct (String.eqb_spec (DIALECT self) SqliteSchemaGenerator_DIALECT);
      cbn; intuition congruence.
  - unfold unique_argument. destruct modify; [by right|].
    destruct (_ && _); [by left|by right].
  - rewrite add_or_modify_column_eq.
    destruct (outcome (_get_default self model) fd) as [clause|e]; [|done].
    cbn. destruct (resolved_field_type self fd) as [field_type|e]; [|done].
    cbn. by rewrite column_statement_text.
  - unfold add_column. rewrite add_or_modify_column_eq.
    destruct (outcome (_get_default self model) fd) as [clause|e]; [|done].
    cbn. destruct (resolved_field_type self fd) as [field_type|e]; [|done].
    cbn. by rewrite column_statement_text.
  - unfold modify_column. rewrite add_or_modify_column_eq.
    destruct (outcome (_get_default self model) fd) as [clause|e]; [|done].
    cbn. destruct (resolved_field_type self fd) as [field_type|e]; [|done].
    cbn. by rewrite column_statement_text.
Qed.

Lemma get_default_without_default self model fd :
  outcome (_get_default self model) (without_default fd) = Ok None.
Proof.
  rewrite get_default_outcome. unfold substituted_default, without_default.
  rewrite lookup_delete_eq. rewrite lookup_delete_ne by done.
  by rewrite lookup_delete_eq.
Qed.

Lemma add_or_modify_column_without_default self model is_pk modify fd :
  outcome (_add_or_modify_column self model is_pk modify) (without_default fd) =
    field_type ← resolved_field_type self fd;
    column_statement self model fd is_pk modify field_type
      (unique_argument self fd modify) "".
Proof.
  rewrite add_or_modify_column_eq, get_default_without_default.
  unfold resolved_field_type, column_statement, unique_argument, without_default.
  by rewrite !lookup_delete_ne by done.
Qed.

(** When resolution yields the empty clause, the column is rendered as for
    the same descriptor without any default. *)
Lemma add_or_modify_column_empty_clause self model is_pk modify fd :
  outcome (_get_default self model) fd = Ok (Some "") →
  outcome (_add_or_modify_column self model is_pk modify) fd =
    (field_type ← resolved_field_type self fd;
     column_statement self model fd is_pk modify field_type
       (unique_argument self fd modify) "")
  ∧ outcome (_add_or_modify_column self model is_pk modify) fd =
    outcome (_add_or_modify_column self model is_pk modify) (without_default fd).
Proof.
  intros Hd. rewrite add_or_modify_column_without_default.
  by rewrite add_or_modify_column_eq, Hd.
Qed.

(** C3: when a default is set (or [auto_now_add] holds) and the field type
    is UUIDField, TextField or JSONField, or the default is a
    default-function marker, resolution yields the empty string;
    [add_column] then passes an empty default clause to [_create_string]
    and returns the statement of the same field without a default. *)
Theorem unrenderable_default_omitted (self : BaseDDL) (model : Model)
    (is_pk : bool) (fd : gmap string pyval) :
  is_not_None (substituted_default fd) = true
  ∨ py_truthy (default (PBool false) (fd !! "auto_now_add")) = true →
  (∃ name, fd !! "field_type" = Some (PStr name)
           ∧ name ∈ ["UUIDField"; "TextField"; "JSONField"])
  ∨ is_default_function (substituted_default fd) = true →
  outcome (_get_default self model) fd = Ok (Some "")
  ∧ outcome (add_column self model is_pk) fd =
      (field_type ← resolved_field_type self fd;
       column_statement self model fd is_pk false field_type
         (unique_argument self fd false) "")
  ∧ outcome (add_column self model is_pk) fd =
      outcome (add_column self model is_pk) (without_default fd).
Proof.
  intros Hset Hkind.
  assert (outcome (_get_default self model) fd = Ok (Some "")) as Hd.
  { rewrite get_default_outcome. cbn zeta.
    replace (_ || _) with true by (symmetry; apply orb_true_iff; exact Hset).
    replace (_ || _) with true; [done|].
    symmetry. apply orb_true_iff.
    destruct Hkind as [(name & -> & Hin)|Hf]; [left|by right].
    cbn. set_unfold. destruct Hin as [->|[->|[->|[]]]]; done. }
  split; [done|]. by apply add_or_modify_column_empty_clause.
Qed.

(** C5: when the literal-default step is reached and the schema generator
    raises NotImplementedError (while escaping the default or while
    rendering the clause), [_get_default] returns the empty clause;
    [add_column] and [modify_column] then render the column as for a field
    without a default, and [alter_column_default] returns a statement: the
    exception does not reach the caller. *)
Theorem unsupported_default_recovered (self : BaseDDL) (model : Model)
    (is_pk : bool) (fd : gmap string pyval) :
  let sg := self.(schema_generator) in
  let d := substituted_default fd in
  let auto_now_add := default (PBool false) (fd !! "auto_now_add") in
  let auto_now := default (PBool false) (fd !! "auto_now") in
  let db_column := default PNone (fd !! "db_column") in
  is_not_None d || py_truthy auto_now_add = true →
  py_in_strs (default PNone (fd !! "field_type"))
    ["UUIDField"; "TextField"; "JSONField"] = false →
  is_default_function d = false →
  sg.(_escape_default_value) d = Raise NotImplementedError
  ∨ (∃ escaped, sg.(_escape_default_value) d = Ok escaped
       ∧ sg.(_column_default_generator) model.(_meta).(db_table) db_column
           escaped auto_now_add auto_now = Raise NotImplementedError) →
  outcome (_get_default self model) fd = Ok (Some "")
  ∧ outcome (add_column self model is_pk) fd =
      outcome (add_column self model is_pk) (without_default fd)
  ∧ outcome (modify_column self model is_pk) fd =
      outcome (modify_column self model is_pk) (without_default fd)
  ∧ outcome (alter_column_default self model) fd =
      Ok ("ALTER TABLE " +:+ dquote +:+ model.(_meta).(db_table) +:+ dquote
          +:+ " ALTER COLUMN " +:+ dquote +:+ py_str db_column +:+ dquote
          +:+ " SET").
Proof.
  cbn zeta. intros Hreach Htype Hmarker Hraise.
  assert (outcome (_get_default self model) fd = Ok (Some "")) as Hd.
  { rewrite get_default_outcome. cbn zeta.
    rewrite Hreach, Htype, Hmarker. cbn.
    destruct Hraise as [->|(escaped & -> & Hgen)]; [done|].
    run_action. by rewrite Hgen. }
  split; [done|]. split; [|split].
  - by apply add_or_modify_column_empty_clause.
  - by apply add_or_modify_column_empty_clause.
  - rewrite alter_column_default_outcome, Hd. run_action. run_format.
Qed.

(** C8: the SQL type handed to [_create_string] is the entry of
    [db_field_types] under the dialect of the compiler when there is one,
    and the entry under the empty key otherwise (None when both are
    missing); a mapping with the empty key alone resolves to its one entry
    whatever the dialect. *)
Theorem field_type_dialect_fallback (self : BaseDDL) (model : Model)
    (is_pk modify : bool) (fd : gmap string pyval) (types : gmap string pyval) :
  fd !! "db_field_types" = Some (PDict types) →
  let field_type :=
    match types !! self.(DIALECT) with
    | Some dialect_type => dialect_type
    | None => default PNone (types !! "")
    end in
  resolved_field_type self fd = Ok field_type
  ∧ outcome (_add_or_modify_column self model is_pk modify) fd =
      (clause ← outcome (_get_default self model) fd;
       column_statement self model fd is_pk modify field_type
         (unique_argument self fd modify) (default "" clause))
  ∧ (∀ only, types = {[ "" := only ]} → field_type = only).
Proof.
  intros Htypes. cbn zeta.
  assert (resolved_field_type self fd =
          Ok (match types !! self.(DIALECT) with
              | Some dialect_type => dialect_type
              | None => default PNone (types !! "")
              end)) as Hres.
  { unfold resolved_field_type. rewrite Htypes. cbn. run_action.
    by destruct (types !! DIALECT self). }
  split; [done|]. split.
  - rewrite add_or_modify_column_eq, Hres.
    by destruct (outcome (_get_default self model) fd).
  - intros only ->. rewrite lookup_singleton_eq.
    destruct (decide (DIALECT self = "")) as [->|Hne].
    + by rewrite lookup_singleton_eq.
    + by rewrite lookup_singleton_ne.
Qed.

(** C9: [_get_default], [add_column], [modify_column] and
    [alter_column_default] leave every entry of the descriptor as it was;
    and nothing is cached: after any code that runs in between, a second
    default resolution returns what a first one returns on the descriptor
    as it then stands. *)
Theorem descriptor_not_mutated (self : BaseDDL) (model : Model) (is_pk : bool)
    (fd : gmap string pyval) :
  descriptor_after (_get_default self model) fd = fd
  ∧ descriptor_after (add_column self model is_pk) fd = fd
  ∧ descriptor_after (modify_column self model is_pk) fd = fd
  ∧ descriptor_after (alter_column_default self model) fd = fd
  ∧ (∀ between : action unit,
       outcome (_ ← _get_default self model; _ ← between;
                _get_default self model) fd =
       (_ ← outcome (_get_default self model) fd;
        _ ← outcome between fd;
        outcome (_get_default self model) (descriptor_after between fd))).
Proof.
  unfold descriptor_after, add_column, modify_column.
  rewrite (readonly_get_default self model fd).
  rewrite !(readonly_add_or_modify_column self model is_pk _ fd).
  rewrite (readonly_alter_column_default self model fd).
  repeat split.
  intros between. rewrite outcome_bind by apply readonly_get_default.
  destruct (outcome (_get_default self model) fd) as [clause|e]; [|done].
  cbn. unfold outcome, descriptor_after. run_action.
  by destruct (between fd) as [[[]|e] fd'].
Qed.

(** C1, on the text field [bio] whose default cannot be rendered:
    [alter_column_default] returns a statement that ends in a bare SET. *)
Theorem alter_column_default_dangling_SET (self : BaseDDL) :
  outcome (alter_column_default self user_model) bio_field =
    Ok ("ALTER TABLE " +:+ dquote +:+ "user" +:+ dquote +:+ " ALTER COLUMN "
        +:+ dquote +:+ "bio" +:+ dquote +:+ " SET").
Proof.
  rewrite alter_column_default_outcome, get_default_outcome.
  vm_compute. reflexivity.
Qed.

End Claims.


(** ** The methods on concrete descriptors *)

Section Examples.
Existing Instance sample_externals.

(** The scenario of the specification: a unique, non-null VARCHAR column
    without default on the generic dialect. *)
Example add_email_generic :
  outcome (add_column (sample_ddl "sql") user_model false) email_field =
    Ok ("ALTER TABLE " +:+ dquote +:+ "user" +:+ dquote +:+ " ADD "
        +:+ dquote +:+ "email" +:+ dquote +:+ " VARCHAR NOT NULL UNIQUE").
Proof. vm_compute. reflexivity. Qed.

Example add_email_sqlite :
  outcome (add_column (sample_ddl "sqlite") user_model false) email_field =
    Ok ("ALTER TABLE " +:+ dquote +:+ "user" +:+ dquote +:+ " ADD "
        +:+ dquote +:+ "email" +:+ dquote +:+ " VARCHAR NOT NULL").
Proof. vm_compute. reflexivity. Qed.

Example modify_email_generic :
  outcome (modify_column (sample_ddl "sql") user_model false) email_field =
    Ok ("ALTER TABLE " +:+ dquote +:+ "user" +:+ dquote +:+ " MODIFY COLUMN "
        +:+ dquote +:+ "email" +:+ dquote +:+ " VARCHAR NOT NULL").
Proof. vm_compute. reflexivity. Qed.

Example add_age_postgres :
  outcome (add_column (sample_ddl "postgres") user_model false) age_field =
    Ok ("ALTER TABLE " +:+ dquote +:+ "user" +:+ dquote +:+ " ADD "
        +:+ dquote +:+ "age" +:+ dquote +:+ " INTEGER DEFAULT 18").
Proof. vm_compute. reflexivity. Qed.

Example alter_default_age :
  outcome (alter_column_default (sample_ddl "sql") user_model) age_field =
    Ok ("ALTER TABLE " +:+ dquote +:+ "user" +:+ dquote +:+ " ALTER COLUMN "
        +:+ dquote +:+ "age" +:+ dquote +:+ " SET DEFAULT 18").
Proof. vm_compute. reflexivity. Qed.

Example alter_default_email :
  outcome (alter_column_default (sample_ddl "sql") user_model) email_field =
    Ok ("ALTER TABLE " +:+ dquote +:+ "user" +:+ dquote +:+ " ALTER COLUMN "
        +:+ dquote +:+ "email" +:+ dquote +:+ " DROP DEFAULT").
Proof. vm_compute. reflexivity. Qed.

Example add_index_a_b :
  add_index (sample_ddl "sql") user_model ["a"; "b"] false =
    Ok ("ALTER TABLE " +:+ dquote +:+ "user" +:+ dquote +:+ " ADD INDEX "
        +:+ dquote +:+ "idx_user_a_b" +:+ dquote +:+ " ("
        +:+ dquote +:+ "a" +:+ dquote +:+ ", " +:+ dquote +:+ "b" +:+ dquote +:+ ")")
  ∧ drop_index (sample_ddl "sql") user_model ["a"; "b"] false =
    Ok ("ALTER TABLE " +:+ dquote +:+ "user" +:+ dquote +:+ " DROP INDEX "
        +:+ dquote +:+ "idx_user_a_b" +:+ dquote).
Proof. split; vm_compute; reflexivity. Qed.

End Examples.

(** Witness of C3: the text field [bio] has the literal default n/a. *)
Lemma unrenderable_default_omitted_witness :
  is_not_None (substituted_default bio_field) = true
  ∧ bio_field !! "field_type" = Some (PStr "TextField")
  ∧ outcome (@_get_default sample_externals (sample_ddl "sql") user_model)
      bio_field = Ok (Some "")
  ∧ outcome (@add_column sample_externals (sample_ddl "sql") user_model false)
      bio_field =
    outcome (@add_column sample_externals (sample_ddl "sql") user_model false)
      (without_default bio_field).
Proof.
  split; [vm_compute; reflexivity|]. split; [vm_compute; reflexivity|].
  destruct (@unrenderable_default_omitted sample_externals
              (sample_ddl "sql") user_model false bio_field)
    as (Hd & _ & Hsame).
  - left. vm_compute. reflexivity.
  - left. exists "TextField". split; [vm_compute; reflexivity|].
    apply list_elem_of_further, list_elem_of_here.
  - split; [exact Hd|exact Hsame].
Defined.

(** Witness of C5: the sample generator cannot render a boolean default. *)
Lemma unsupported_default_recovered_witness :
  _column_default_generator sample_generator "user" (PStr "active")
    (PBool true) (PBool false) (PBool false) = Raise NotImplementedError
  ∧ outcome (@_get_default sample_externals (sample_ddl "sql") user_model)
      active_field = Ok (Some "")
  ∧ outcome (@alter_column_default sample_externals (sample_ddl "sql") user_model)
      active_field =
    Ok ("ALTER TABLE " +:+ dquote +:+ "user" +:+ dquote +:+ " ALTER COLUMN "
        +:+ dquote +:+ "active" +:+ dquote +:+ " SET").
Proof.
  split; [vm_compute; reflexivity|].
  assert (H := @unsupported_default_recovered sample_externals
                 (sample_ddl "sql") user_model false active_field).
  cbn zeta in H. destruct H as (Hd & _ & _ & Hs).
  - vm_compute. reflexivity.
  - vm_compute. reflexivity.
  - vm_compute. reflexivity.
  - right. exists (PBool true). split; vm_compute; reflexivity.
  - split; [exact Hd|exact Hs].
Defined.

(** Witness of C8: [email] has the empty key alone and the compiler is the
    PostgreSQL one. *)
Lemma field_type_dialect_fallback_witness :
  email_field !! "db_field_types" = Some (PDict {[ "" := PStr "VARCHAR" ]})
  ∧ resolved_field_type (sample_ddl "postgres") email_field
    = Ok (PStr "VARCHAR").
Proof.
  split; [vm_compute; reflexivity|].
  assert (H := @field_type_dialect_fallback sample_externals
                 (sample_ddl "postgres") user_model false false email_field
                 {[ "" := PStr "VARCHAR" ]}).
  destruct H as (Hres & _ & _).
  - vm_compute. reflexivity.
  - exact Hres.
Defined.


(** ** Further properties of the code *)

Lemma rstrip_decompose (chars s : string) :
  ∃ suffix, s = rstrip chars s +:+ suffix ∧ all_in chars suffix = true.
Proof.
  induction s as [|a rest (suffix & Hrest & Hall)]; [by exists ""|].
  cbn. destruct (rstrip chars rest) as [|b kept] eqn:Hstrip.
  - cbn in Hrest. subst suffix.
    destruct (char_in a chars) eqn:Ha.
    + exists (String a rest). cbn. by rewrite Ha, Hall.
    + by exists rest.
  - exists suffix. split; [|done]. cbn. by rewrite Hrest at 1.
Qed.

Lemma rstrip_no_trailing (chars s t : string) (a : Ascii.ascii) :
  rstrip chars s = t +:+ String a "" → char_in a chars = false.
Proof.
  revert t. induction s as [|b rest IH]; intros t; cbn.
  - by destruct t.
  - destruct (rstrip chars rest) as [|c kept] eqn:Hstrip.
    + destruct (char_in b chars) eqn:Hb; [by destruct t|].
      destruct t as [|b' [|??]]; cbn; intros ?; by simplify_eq.
    + destruct t as [|b' t']; cbn; intros ?; simplify_eq.
      by eapply IH.
Qed.

Section Further.
Context `{Externals}.

(** X1: [create_table] asks the generator for the safe creation statement
    and returns it without its trailing semicolons: the creation string is
    the result followed by semicolons only, and the result does not end in
    a semicolon. *)
Theorem create_table_strips_semicolons (self : DDL) (model : Model)
    (d : gmap string pyval) (sql : string) :
  Orm._get_table_sql self.(tables) model true = Ok (PDict d) →
  d !! "table_creation_string" = Some (PStr sql) →
  ∃ out suffix,
    create_table self model = Ok out
    ∧ sql = out +:+ suffix
    ∧ all_in ";" suffix = true
    ∧ ∀ t, out ≠ t +:+ ";".
Proof.
  intros Hsql Hkey. destruct (rstrip_decompose ";" sql) as (suffix & Hdec & Hall).
  exists (rstrip ";" sql), suffix. repeat split; [|done|done|].
  - unfold create_table. rewrite Hsql. run_action. by rewrite Hkey.
  - intros t Ht. by apply rstrip_no_trailing in Ht.
Qed.

(** X2: when the dict that the generator returns holds no string under
    table_creation_string, [create_table] returns no statement: it raises
    KeyError when the entry is missing and AttributeError when it is not a
    string. *)
Theorem create_table_without_creation_string (self : DDL) (model : Model)
    (d : gmap string pyval) :
  Orm._get_table_sql self.(tables) model true = Ok (PDict d) →
  (∀ sql, d !! "table_creation_string" ≠ Some (PStr sql)) →
  create_table self model =
    Raise (match d !! "table_creation_string" with
           | None => KeyError
           | Some _ => AttributeError
           end).
Proof.
  intros Hsql Hkey. unfold create_table. rewrite Hsql. run_action.
  destruct (d !! "table_creation_string") as [v|]; [|done].
  destruct v; try done. by destruct (Hkey s).
Qed.

(** X3: without a [pk_field] dict in the description of the referenced
    table, [create_m2m], [add_fk] and [drop_fk] raise AttributeError,
    whatever the schema generator answers. *)
Theorem missing_pk_field_AttributeError (self : DDL) (model : Model)
    (field_describe reference_table_describe : gmap string pyval) :
  (∀ pk, reference_table_describe !! "pk_field" ≠ Some (PDict pk)) →
  create_m2m self model field_describe reference_table_describe = Raise AttributeError
  ∧ add_fk self model field_describe reference_table_describe = Raise AttributeError
  ∧ drop_fk self model field_describe reference_table_describe = Raise AttributeError.
Proof.
  intros Hpk. unfold create_m2m, add_fk, drop_fk, _generate_fk_name.
  destruct (reference_table_describe !! "pk_field") as [v|]; [|done].
  destruct v; try done. by destruct (Hpk d).
Qed.

(** X4: with a [pk_field] dict, [add_fk] and [drop_fk] obtain the name of
    the constraint from the same call of the name generator (table of the
    model, raw field, referenced table, its primary-key column) and embed
    the name it returns; a missing entry is rendered as None. *)
Theorem add_fk_drop_fk_same_name (self : DDL) (model : Model)
    (field_describe reference_table_describe pk : gmap string pyval) :
  reference_table_describe !! "pk_field" = Some (PDict pk) →
  let db_table := model.(_meta).(db_table) in
  let raw_field := default PNone (field_describe !! "raw_field") in
  let table := default PNone (reference_table_describe !! "table") in
  let reference_id := default PNone (pk !! "db_column") in
  let generated :=
    Orm._generate_fk_name self.(tables) db_table raw_field table reference_id in
  add_fk self model field_describe reference_table_describe =
    (fk_name ← generated;
     Ok ("ALTER TABLE " +:+ dquote +:+ db_table +:+ dquote
         +:+ " ADD CONSTRAINT " +:+ dquote +:+ fk_name +:+ dquote
         +:+ " FOREIGN KEY (" +:+ dquote +:+ py_str raw_field +:+ dquote
         +:+ ") REFERENCES " +:+ dquote +:+ py_str table +:+ dquote
         +:+ " (" +:+ dquote +:+ py_str reference_id +:+ dquote
         +:+ ") ON DELETE "
         +:+ py_str (default PNone (field_describe !! "on_delete"))))
  ∧ drop_fk self model field_describe reference_table_describe =
    (fk_name ← generated;
     Ok ("ALTER TABLE " +:+ dquote +:+ db_table +:+ dquote
         +:+ " DROP FOREIGN KEY " +:+ dquote +:+ fk_name +:+ dquote)).
Proof.
  intros Hpk. cbn zeta. unfold add_fk, drop_fk, _generate_fk_name.
  rewrite Hpk. run_action.
  destruct (Orm._generate_fk_name _ _ _ _ _) as [fk_name|e]; [|done].
  split; run_format.
Qed.

(** X5: [drop_index] is [drop_index_by_name] at the name that the generator
    returns, and [drop_index_by_name] always returns its statement. *)
Theorem drop_index_by_generated_name (self : BaseDDL) (model : Model)
    (field_names : list string) (unique : bool) (index_name : string) :
  drop_index self model field_names unique =
    (generated ← self.(schema_generator).(_generate_index_name)
                   (if unique then "uid" else "idx") model field_names;
     drop_index_by_name self model generated)
  ∧ drop_index_by_name self model index_name =
    Ok ("ALTER TABLE " +:+ dquote +:+ model.(_meta).(db_table) +:+ dquote
        +:+ " DROP INDEX " +:+ dquote +:+ index_name +:+ dquote).
Proof.
  unfold drop_index, drop_index_by_name.
  split; [by destruct unique|run_format].
Qed.

(** X6: [drop_column], [rename_column] and [change_column] always return
    their statement; [change_column] writes the two column names and the
    type without quotes. *)
Theorem column_statements (self : BaseDDL) (model : Model)
    (old_name new_name new_type : string) :
  let table := model.(_meta).(db_table) in
  drop_column self model old_name =
    Ok ("ALTER TABLE " +:+ dquote +:+ table +:+ dquote +:+ " DROP COLUMN "
        +:+ dquote +:+ old_name +:+ dquote)
  ∧ rename_column self model old_name new_name =
    Ok ("ALTER TABLE " +:+ dquote +:+ table +:+ dquote +:+ " RENAME COLUMN "
        +:+ dquote +:+ old_name +:+ dquote +:+ " TO "
        +:+ dquote +:+ new_name +:+ dquote)
  ∧ change_column self model old_name new_name new_type =
    Ok ("ALTER TABLE " +:+ dquote +:+ table +:+ dquote +:+ " CHANGE "
        +:+ old_name +:+ " " +:+ new_name +:+ " " +:+ new_type).
Proof.
  unfold drop_column, rename_column, change_column.
  repeat split; run_format.
Qed.

(** X7: on a well-formed description, [create_m2m] returns the join table
    with the backward reference always ON DELETE CASCADE and the forward
    reference with the [on_delete] of the field; the forward type is the
    entry of the dialect when it is truthy and the entry of the empty key
    otherwise; a comment is generated only for a truthy description. *)
Theorem create_m2m_statement (self : DDL) (model : Model)
    (field_describe reference_table_describe pk types : gmap string pyval)
    (backward_type : pyval) (extra comment : string) :
  let through := default PNone (field_describe !! "through") in
  let description := default PNone (field_describe !! "description") in
  let dialect_type := default PNone (types !! self.(base).(DIALECT)) in
  let forward_type :=
    if py_truthy dialect_type then dialect_type
    else default PNone (types !! "") in
  reference_table_describe !! "pk_field" = Some (PDict pk) →
  pk !! "db_field_types" = Some (PDict types) →
  Orm.get_for_dialect self.(tables) model self.(base).(DIALECT) "SQL_TYPE"
    = Ok backward_type →
  Orm._table_generate_extra self.(tables) through = Ok extra →
  (if py_truthy description
   then Orm._table_comment_generator self.(tables) through description
   else Ok "") = Ok comment →
  create_m2m self model field_describe reference_table_describe =
    Ok ("CREATE TABLE " +:+ dquote +:+ py_str through +:+ dquote +:+ " ("
        +:+ newline +:+ "    " +:+ dquote
        +:+ py_str (default PNone (field_describe !! "backward_key"))
        +:+ dquote +:+ " " +:+ py_str backward_type
        +:+ " NOT NULL REFERENCES " +:+ dquote +:+ model.(_meta).(db_table)
        +:+ dquote +:+ " (" +:+ dquote +:+ model.(_meta).(db_pk_column)
        +:+ dquote +:+ ") ON DELETE CASCADE,"
        +:+ newline +:+ "    " +:+ dquote
        +:+ py_str (default PNone (field_describe !! "forward_key"))
        +:+ dquote +:+ " " +:+ py_str forward_type
        +:+ " NOT NULL REFERENCES " +:+ dquote
        +:+ py_str (default PNone (reference_table_describe !! "table"))
        +:+ dquote +:+ " (" +:+ dquote
        +:+ py_str (default PNone (pk !! "db_column"))
        +:+ dquote +:+ ") ON DELETE "
        +:+ py_str (default PNone (field_describe !! "on_delete"))
        +:+ newline +:+ ")" +:+ extra +:+ comment).
Proof.
  cbn zeta. intros Hpk Htypes Hback Hextra Hcomment.
  unfold create_m2m. rewrite Hpk. run_action. rewrite Htypes. cbn.
  rewrite Hback, Hextra. cbn.
  destruct (py_truthy (default PNone (types !! DIALECT (base self)))); cbn;
    rewrite Hcomment; cbn; unfold newline; run_format.
Qed.

(** X8: in [create_m2m] a falsy entry of the dialect in [db_field_types]
    (None or the empty string) counts as absent: the statement is that of
    the description without the entry.  The column routine does not do
    so: it resolves the type to the falsy entry itself. *)
Theorem create_m2m_falsy_dialect_type (self : DDL) (model : Model)
    (field_describe reference_table_describe pk types : gmap string pyval)
    (entry : pyval) :
  reference_table_describe !! "pk_field" = Some (PDict pk) →
  pk !! "db_field_types" = Some (PDict types) →
  types !! self.(base).(DIALECT) = Some entry →
  py_truthy entry = false →
  self.(base).(DIALECT) ≠ "" →
  create_m2m self model field_describe reference_table_describe =
    create_m2m self model field_describe
      (<["pk_field" :=
           PDict (<["db_field_types" :=
                      PDict (delete self.(base).(DIALECT) types)]> pk)]>
         reference_table_describe)
  ∧ ∀ column : gmap string pyval,
      column !! "db_field_types" = Some (PDict types) →
      resolved_field_type self.(base) column = Ok entry.
Proof.
  intros Hpk Htypes Hentry Hfalsy Hdialect. split.
  - unfold create_m2m. rewrite Hpk, lookup_insert_eq.
    rewrite (lookup_insert_ne _ "pk_field" "table") by done.
    run_action. rewrite Htypes, lookup_insert_eq.
    rewrite (lookup_insert_ne _ "db_field_types" "db_column") by done.
    cbn. rewrite Hentry, lookup_delete_eq. cbn. rewrite Hfalsy.
    by rewrite lookup_delete_ne.
  - intros column Hcolumn. unfold resolved_field_type.
    rewrite Hcolumn. run_action. by rewrite Hentry.
Qed.

(** Rewrites the lookups of [fd] into those of a descriptor that agrees
    with it. *)
Ltac rewrite_agree Hagree :=
  repeat match goal with
    | |- context [?fd !! ?key] =>
        rewrite (Hagree key)
          by (repeat first [apply list_elem_of_here | apply list_elem_of_further])
    end.

Lemma get_default_agree self model fd fd' :
  agree_on ["default"; "db_column"; "auto_now_add"; "auto_now"; "field_type"] fd fd' →
  outcome (_get_default self model) fd = outcome (_get_default self model) fd'.
Proof.
  intros Hagree. rewrite !get_default_outcome. unfold substituted_default.
  by rewrite_agree Hagree.
Qed.

Lemma add_or_modify_column_agree self model is_pk modify fd fd' :
  agree_on ["default"; "db_column"; "auto_now_add"; "auto_now"; "field_type";
            "description"; "db_field_types"; "nullable"] fd fd' →
  (modify = false → fd !! "unique" = fd' !! "unique") →
  outcome (_add_or_modify_column self model is_pk modify) fd =
  outcome (_add_or_modify_column self model is_pk modify) fd'.
Proof.
  intros Hagree Hunique. rewrite !add_or_modify_column_eq.
  rewrite (get_default_agree self model fd fd').
  2:{ intros key Hkey. apply Hagree.
      rewrite !elem_of_cons, elem_of_nil in Hkey. rewrite !elem_of_cons. tauto. }
  unfold resolved_field_type, column_statement, unique_argument.
  destruct modify; [|rewrite Hunique by done]; by rewrite_agree Hagree.
Qed.

(** X9: [alter_column_null] and [set_comment] return the same statement,
    that of [modify_column] for a column that is not a primary key: the
    column is rendered without UNIQUE and the statement does not depend on
    the unique entry of the descriptor. *)
Theorem alter_column_null_set_comment (self : BaseDDL) (model : Model)
    (fd : gmap string pyval) (flag : pyval) :
  outcome (set_comment self model) fd = outcome (alter_column_null self model) fd
  ∧ outcome (alter_column_null self model) fd =
    (clause ← outcome (_get_default self model) fd;
     field_type ← resolved_field_type self fd;
     column_statement self model fd false true field_type "" (default "" clause))
  ∧ outcome (alter_column_null self model) (<["unique" := flag]> fd) =
    outcome (alter_column_null self model) fd.
Proof.
  unfold set_comment, alter_column_null, modify_column. repeat split.
  - by rewrite add_or_modify_column_eq.
  - apply add_or_modify_column_agree; [|done].
    intros key Hkey. apply lookup_insert_ne. intros <-.
    rewrite !elem_of_cons, elem_of_nil in Hkey. intuition discriminate.
Qed.

(** X10: an exception of another class than NotImplementedError, raised
    while the default is escaped or rendered, is not caught: it leaves
    [_get_default], [add_column], [modify_column] and
    [alter_column_default]. *)
Theorem other_exception_propagates (self : BaseDDL) (model : Model)
    (is_pk : bool) (fd : gmap string pyval) (e : exn) :
  let sg := self.(schema_generator) in
  let d := substituted_default fd in
  let auto_now_add := default (PBool false) (fd !! "auto_now_add") in
  let auto_now := default (PBool false) (fd !! "auto_now") in
  let db_column := default PNone (fd !! "db_column") in
  is_not_None d || py_truthy auto_now_add = true →
  py_in_strs (default PNone (fd !! "field_type"))
    ["UUIDField"; "TextField"; "JSONField"] = false →
  is_default_function d = false →
  e ≠ NotImplementedError →
  sg.(_escape_default_value) d = Raise e
  ∨ (∃ escaped, sg.(_escape_default_value) d = Ok escaped
       ∧ sg.(_column_default_generator) model.(_meta).(db_table) db_column
           escaped auto_now_add auto_now = Raise e) →
  outcome (_get_default self model) fd = Raise e
  ∧ outcome (add_column self model is_pk) fd = Raise e
  ∧ outcome (modify_column self model is_pk) fd = Raise e
  ∧ outcome (alter_column_default self model) fd = Raise e.
Proof.
  cbn zeta. intros Hreach Htype Hmarker Hclass Hraise.
  assert (outcome (_get_default self model) fd = Raise e) as Hd.
  { rewrite get_default_outcome. cbn zeta.
    rewrite Hreach, Htype, Hmarker. cbn.
    destruct Hraise as [->|(escaped & -> & Hgen)]; run_action;
      [|rewrite Hgen]; by case_bool_decide. }
  unfold add_column, modify_column.
  by rewrite !add_or_modify_column_eq, alter_column_default_outcome, Hd.
Qed.

(** X11: when default resolution succeeds and [db_field_types] is missing
    from the descriptor or is not a dict, [add_column] and [modify_column]
    raise AttributeError. *)
Theorem missing_db_field_types_AttributeError (self : BaseDDL) (model : Model)
    (is_pk modify : bool) (fd : gmap string pyval) (clause : option string) :
  (∀ types, fd !! "db_field_types" ≠ Some (PDict types)) →
  outcome (_get_default self model) fd = Ok clause →
  outcome (_add_or_modify_column self model is_pk modify) fd = Raise AttributeError.
Proof.
  intros Htypes Hd. rewrite add_or_modify_column_eq, Hd.
  unfold resolved_field_type. run_action.
  destruct (fd !! "db_field_types") as [v|]; [|done].
  destruct v; try done. by destruct (Htypes d).
Qed.

Lemma mapM_first_failure {A B} (f : A → result B) pre x post e :
  Forall (λ a, ∃ b, f a = Ok b) pre →
  f x = Raise e →
  mapM f (pre ++ x :: post) = Raise e.
Proof.
  intros Hpre Hx. induction Hpre as [|a pre [b Hb] _ IH].
  - cbn. by rewrite Hx.
  - change (mapM f ((a :: pre) ++ x :: post))
      with (y ← f a; k ← mapM f (pre ++ x :: post); mret (y :: k)).
    by rewrite Hb, IH.
Qed.

(** X12: when the name of the index is generated and quoting fails at some
    field, [add_index] raises the exception of the first such field,
    while [drop_index], which quotes nothing, returns its statement. *)
Theorem add_index_first_unquotable (self : BaseDDL) (model : Model)
    (pre post : list string) (field : string) (unique : bool)
    (index_name : string) (e : exn) :
  self.(schema_generator).(_generate_index_name)
    (if unique then "uid" else "idx") model (pre ++ field :: post) = Ok index_name →
  Forall (λ name, ∃ quoted, self.(schema_generator).(quote) name = Ok quoted) pre →
  self.(schema_generator).(quote) field = Raise e →
  add_index self model (pre ++ field :: post) unique = Raise e
  ∧ drop_index self model (pre ++ field :: post) unique =
    Ok ("ALTER TABLE " +:+ dquote +:+ model.(_meta).(db_table) +:+ dquote
        +:+ " DROP INDEX " +:+ dquote +:+ index_name +:+ dquote).
Proof.
  intros Hname Hpre Hfield. unfold add_index, drop_index.
  replace (if negb unique then "idx" else "uid")
    with (if unique then "uid" else "idx") by (by destruct unique).
  rewrite Hname. run_action. split; [|run_format].
  by rewrite (mapM_first_failure _ pre field post e).
Qed.

(** X13: [alter_column_default] fails exactly when default resolution
    fails; otherwise it returns the statement that ends in DROP DEFAULT
    for None and in SET followed by the clause as the generator gave it,
    with a missing [db_column] rendered as None. *)
Theorem alter_column_default_total (self : BaseDDL) (model : Model)
    (fd : gmap string pyval) :
  outcome (alter_column_default self model) fd =
    (clause ← outcome (_get_default self model) fd;
     Ok ("ALTER TABLE " +:+ dquote +:+ model.(_meta).(db_table) +:+ dquote
         +:+ " ALTER COLUMN " +:+ dquote
         +:+ py_str (default PNone (fd !! "db_column")) +:+ dquote +:+ " "
         +:+ match clause with
             | Some c => "SET" +:+ c
             | None => "DROP DEFAULT"
             end))
  ∧ ∀ e, outcome (alter_column_default self model) fd = Raise e ↔
         outcome (_get_default self model) fd = Raise e.
Proof.
  rewrite alter_column_default_outcome.
  destruct (outcome (_get_default self model) fd) as [[c|]|e];
    run_action; (split; [run_format|]);
    intros other; split; intros Heq; by simplify_eq.
Qed.

(** X14: the outcome of [alter_column_default] depends on the descriptor
    only through the entries default, db_column, auto_now_add, auto_now
    and field_type. *)
Theorem alter_column_default_reads (self : BaseDDL) (model : Model)
    (fd fd' : gmap string pyval) :
  agree_on ["default"; "db_column"; "auto_now_add"; "auto_now"; "field_type"] fd fd' →
  outcome (alter_column_default self model) fd =
  outcome (alter_column_default self model) fd'.
Proof.
  intros Hagree. rewrite !alter_column_default_outcome.
  rewrite (get_default_agree self model fd fd' Hagree).
  by rewrite_agree Hagree.
Qed.

(** X15: the outcome of [modify_column] depends on the descriptor only
    through the entries default, db_column, auto_now_add, auto_now,
    field_type, description, db_field_types and nullable; that of
    [add_column] through these and unique. *)
Theorem add_modify_column_reads (self : BaseDDL) (model : Model) (is_pk : bool)
    (fd fd' : gmap string pyval) :
  agree_on ["default"; "db_column"; "auto_now_add"; "auto_now"; "field_type";
            "description"; "db_field_types"; "nullable"] fd fd' →
  outcome (modify_column self model is_pk) fd =
    outcome (modify_column self model is_pk) fd'
  ∧ (fd !! "unique" = fd' !! "unique" →
     outcome (add_column self model is_pk) fd =
       outcome (add_column self model is_pk) fd').
Proof.
  intros Hagree. unfold add_column, modify_column. split.
  - by apply add_or_modify_column_agree.
  - intros Hunique. by apply add_or_modify_column_agree.
Qed.

End Further.

(** ** The further properties on concrete inputs *)

(** Witness of X1: the sample creation string ends in one semicolon. *)
Lemma create_table_strips_semicolons_witness :
  ∃ out suffix,
    create_table (sample_full_ddl "sql") user_model = Ok out
    ∧ "CREATE TABLE IF NOT EXISTS " +:+ dquote +:+ "user" +:+ dquote +:+ " (...);"
      = out +:+ suffix
    ∧ all_in ";" suffix = true
    ∧ ∀ t, out ≠ t +:+ ";".
Proof.
  apply (create_table_strips_semicolons (sample_full_ddl "sql") user_model
           {[ "table_creation_string" :=
                PStr ("CREATE TABLE IF NOT EXISTS " +:+ dquote +:+ "user"
                      +:+ dquote +:+ " (...);") ]}).
  - vm_compute. reflexivity.
  - vm_compute. reflexivity.
Defined.

(** Witness of X2: the strict generator returns an empty dict. *)
Lemma create_table_without_creation_string_witness :
  create_table strict_ddl user_model = Raise KeyError.
Proof.
  rewrite (create_table_without_creation_string strict_ddl user_model ∅).
  - vm_compute. reflexivity.
  - vm_compute. reflexivity.
  - intros sql. vm_compute. discriminate.
Defined.

(** Witness of X3: an empty description of the referenced table. *)
Lemma missing_pk_field_AttributeError_witness :
  @create_m2m sample_externals (sample_full_ddl "sql") user_model owner_field ∅
    = Raise AttributeError
  ∧ @add_fk sample_externals (sample_full_ddl "sql") user_model owner_field ∅
    = Raise AttributeError
  ∧ @drop_fk sample_externals (sample_full_ddl "sql") user_model owner_field ∅
    = Raise AttributeError.
Proof.
  apply (@missing_pk_field_AttributeError sample_externals
           (sample_full_ddl "sql") user_model owner_field ∅).
  intros pk. vm_compute. discriminate.
Defined.

(** Witness of X4: the foreign key [owner] to [team]. *)
Lemma add_fk_drop_fk_same_name_witness :
  @add_fk sample_externals (sample_full_ddl "sql") user_model owner_field team_table =
    Ok ("ALTER TABLE " +:+ dquote +:+ "user" +:+ dquote +:+ " ADD CONSTRAINT "
        +:+ dquote +:+ "fk_user_team" +:+ dquote +:+ " FOREIGN KEY ("
        +:+ dquote +:+ "owner_id" +:+ dquote +:+ ") REFERENCES "
        +:+ dquote +:+ "team" +:+ dquote +:+ " (" +:+ dquote +:+ "id" +:+ dquote
        +:+ ") ON DELETE CASCADE")
  ∧ @drop_fk sample_externals (sample_full_ddl "sql") user_model owner_field team_table =
    Ok ("ALTER TABLE " +:+ dquote +:+ "user" +:+ dquote +:+ " DROP FOREIGN KEY "
        +:+ dquote +:+ "fk_user_team" +:+ dquote).
Proof.
  destruct (@add_fk_drop_fk_same_name sample_externals (sample_full_ddl "sql")
              user_model owner_field team_table team_pk) as [Hadd Hdrop].
  - vm_compute. reflexivity.
  - split; [rewrite Hadd|rewrite Hdrop]; vm_compute; reflexivity.
Defined.

(** Witness of X7: the join table of [user] and [team]. *)
Lemma create_m2m_statement_witness :
  @create_m2m sample_externals (sample_full_ddl "sql") user_model owner_field team_table =
    Ok ("CREATE TABLE " +:+ dquote +:+ "user_team" +:+ dquote +:+ " (" +:+ newline
        +:+ "    " +:+ dquote +:+ "user_id" +:+ dquote
        +:+ " INT NOT NULL REFERENCES " +:+ dquote +:+ "user" +:+ dquote
        +:+ " (" +:+ dquote +:+ "id" +:+ dquote +:+ ") ON DELETE CASCADE," +:+ newline
        +:+ "    " +:+ dquote +:+ "team_id" +:+ dquote
        +:+ " BIGINT NOT NULL REFERENCES " +:+ dquote +:+ "team" +:+ dquote
        +:+ " (" +:+ dquote +:+ "id" +:+ dquote +:+ ") ON DELETE CASCADE" +:+ newline
        +:+ ")").
Proof.
  rewrite (@create_m2m_statement sample_externals (sample_full_ddl "sql")
             user_model owner_field team_table team_pk
             {[ "" := PStr "BIGINT" ]} (PStr "INT") "" "").
  - vm_compute. reflexivity.
  - vm_compute. reflexivity.
  - vm_compute. reflexivity.
  - vm_compute. reflexivity.
  - vm_compute. reflexivity.
  - vm_compute. reflexivity.
Defined.

(** Witness of X8: the MySQL type of the primary key of [legacy] is the
    empty string. *)
Lemma create_m2m_falsy_dialect_type_witness :
  legacy_types !! "mysql" = Some (PStr "")
  ∧ @create_m2m sample_externals (sample_full_ddl "mysql") user_model
      owner_field legacy_table =
    @create_m2m sample_externals (sample_full_ddl "mysql") user_model owner_field
      (<["pk_field" :=
           PDict (<["db_field_types" := PDict (delete "mysql" legacy_types)]>
                    legacy_pk)]> legacy_table)
  ∧ resolved_field_type (sample_ddl "mysql")
      {[ "db_field_types" := PDict legacy_types ]} = Ok (PStr "").
Proof.
  split; [vm_compute; reflexivity|].
  destruct (@create_m2m_falsy_dialect_type sample_externals
              (sample_full_ddl "mysql") user_model owner_field legacy_table
              legacy_pk legacy_types (PStr "")) as [Hm2m Hcolumn].
  - vm_compute. reflexivity.
  - vm_compute. reflexivity.
  - vm_compute. reflexivity.
  - vm_compute. reflexivity.
  - discriminate.
  - split; [exact Hm2m|]. apply Hcolumn. vm_compute. reflexivity.
Defined.

(** Witness of X10: the strict generator fails with ValueError on the
    default of [age]. *)
Lemma other_exception_propagates_witness :
  outcome (@_get_default sample_externals (base strict_ddl) user_model) age_field
    = Raise ValueError
  ∧ outcome (@add_column sample_externals (base strict_ddl) user_model false) age_field
    = Raise ValueError
  ∧ outcome (@modify_column sample_externals (base strict_ddl) user_model false) age_field
    = Raise ValueError
  ∧ outcome (@alter_column_default sample_externals (base strict_ddl) user_model) age_field
    = Raise ValueError.
Proof.
  apply (@other_exception_propagates sample_externals (base strict_ddl)
           user_model false age_field ValueError).
  - vm_compute. reflexivity.
  - vm_compute. reflexivity.
  - vm_compute. reflexivity.
  - discriminate.
  - right. exists (PInt 18). split; vm_compute; reflexivity.
Defined.

(** Witness of X11: [owner] has no [db_field_types] and no default. *)
Lemma missing_db_field_types_AttributeError_witness :
  outcome (@_add_or_modify_column sample_externals (sample_ddl "sql") user_model
             false false) owner_field = Raise AttributeError.
Proof.
  apply (@missing_db_field_types_AttributeError sample_externals
           (sample_ddl "sql") user_model false false owner_field None).
  - intros types. vm_compute. discriminate.
  - vm_compute. reflexivity.
Defined.

(** Witness of X12: the strict generator quotes [a] and refuses the empty
    name. *)
Lemma add_index_first_unquotable_witness :
  @add_index sample_externals (base strict_ddl) user_model ["a"; ""; "b"] true
    = Raise ValueError
  ∧ @drop_index sample_externals (base strict_ddl) user_model ["a"; ""; "b"] true =
    Ok ("ALTER TABLE " +:+ dquote +:+ "user" +:+ dquote +:+ " DROP INDEX "
        +:+ dquote +:+ "uid_user_a__b" +:+ dquote).
Proof.
  apply (@add_index_first_unquotable sample_externals (base strict_ddl)
           user_model ["a"] ["b"] "" true "uid_user_a__b" ValueError).
  - vm_compute. reflexivity.
  - apply Forall_cons. split; [|apply Forall_nil_2].
    eexists. vm_compute. reflexivity.
  - vm_compute. reflexivity.
Defined.

(** Witness of X14: a change of the nullable entry of [age]. *)
Lemma alter_column_default_reads_witness :
  outcome (@alter_column_default sample_externals (sample_ddl "sql") user_model)
    age_field =
  outcome (@alter_column_default sample_externals (sample_ddl "sql") user_model)
    (<["nullable" := PBool false]> age_field).
Proof.
  apply (@alter_column_default_reads sample_externals (sample_ddl "sql")
           user_model age_field (<["nullable" := PBool false]> age_field)).
  intros key Hkey. symmetry. apply lookup_insert_ne. intros <-.
  rewrite !elem_of_cons, elem_of_nil in Hkey. intuition discriminate.
Defined.

(** Witness of X15: an entry that the column routine does not read. *)
Lemma add_modify_column_reads_witness :
  outcome (@modify_column sample_externals (sample_ddl "sql") user_model false)
    email_field =
  outcome (@modify_column sample_externals (sample_ddl "sql") user_model false)
    (<["through" := PStr "user_team"]> email_field)
  ∧ outcome (@add_column sample_externals (sample_ddl "sql") user_model false)
      email_field =
    outcome (@add_column sample_externals (sample_ddl "sql") user_model false)
      (<["through" := PStr "user_team"]> email_field).
Proof.
  destruct (@add_modify_column_reads sample_externals (sample_ddl "sql")
              user_model false email_field
              (<["through" := PStr "user_team"]> email_field)) as [Hmodify Hadd].
  - intros key Hkey. symmetry. apply lookup_insert_ne. intros <-.
    rewrite !elem_of_cons, elem_of_nil in Hkey. intuition discriminate.
  - split; [exact Hmodify|]. apply Hadd. vm_compute. reflexivity.
Defined.
